(** * A shallow embedding of [src/BubbleDataType.ts]

    The TypeScript class [BubbleDataType] is a thin client over the Bubble
    data API.  Its static methods ([getByID], [create], [search], [getAll],
    [getOne]) and its instance method [save] each derive a URL and an
    authorisation header from the process-wide [BubbleConfig], issue HTTP
    requests through axios and inspect the JSON body of the response.

    The embedding below follows the source:
    - JavaScript values are the inductive [val]; property access, optional
      chaining, truthiness, [String(_)] and the [<=] comparison are written
      out as the language defines them (numbers are integers here);
    - the HTTP transport is an oracle [server] consulted with the index of
      the request and the request itself; every issued request is appended to
      a log, so the number and the shape of network calls is observable;
    - [await] on a rejected promise, [throw] and a [TypeError] raised by a
      property access on [undefined] are the exceptional outcome [Exc] of a
      small state-and-exception monad [M];
    - the [while (true)] loop of [getAll] runs on fuel; running out of fuel
      is the separate outcome [OutOfFuel], never confused with an exception. *)

From Stdlib Require Import String Ascii ZArith List Bool Lia.
Import ListNotations.
Open Scope string_scope.

(** ** JavaScript values *)

Set Warnings "-register-all".

Inductive val : Type :=
| VUndef
| VNull
| VBool (b : bool)
| VNum (z : Z)
| VStr (s : string)
| VArr (l : list val)
| VObj (fields : list (string * val)).

(** [if (v)], [!v], [a || b]: ToBoolean. *)
Definition truthy (v : val) : bool :=
  match v with
  | VUndef | VNull => false
  | VBool b => b
  | VNum z => negb (Z.eqb z 0)
  | VStr s => negb (String.eqb s "")
  | VArr _ | VObj _ => true
  end.

Fixpoint assoc (k : string) (fs : list (string * val)) : option val :=
  match fs with
  | [] => None
  | (k', v) :: fs' => if String.eqb k k' then Some v else assoc k fs'
  end.

(** Writing [o[k] = v] (or a later key in an object literal / spread): an
    existing key keeps its position and takes the new value, a new key is
    appended. *)
Fixpoint set_field (k : string) (v : val) (fs : list (string * val))
  : list (string * val) :=
  match fs with
  | [] => [(k, v)]
  | (k', v') :: fs' =>
      if String.eqb k k' then (k', v) :: fs' else (k', v') :: set_field k v fs'
  end.

(** Exceptions a call can end in. *)
Inductive exn : Type :=
| Error (msg : string)        (** [new Error(msg)] thrown by this file *)
| TypeError                   (** property read on [undefined] / [null] *)
| External (code : Z).        (** raised by axios or by [BubbleConfig.get] *)

Inductive result (A : Type) : Type :=
| Ok (a : A)
| Exc (e : exn)
| OutOfFuel.
Arguments Ok {A} a.
Arguments Exc {A} e.
Arguments OutOfFuel {A}.

(** Decimal rendering of an integer, as [String(n)] prints it. *)
Fixpoint digits_rev (fuel : nat) (n : N) : string :=
  match fuel with
  | O => ""
  | S f =>
      let d := N.modulo n 10 in
      let c := ascii_of_N (48 + d) in
      let q := N.div n 10 in
      if N.eqb q 0 then String c "" else String c (digits_rev f q)
  end.

Fixpoint rev_string (s : string) : string :=
  match s with
  | "" => ""
  | String c s' => rev_string s' ++ String c ""
  end.

Definition string_of_N (n : N) : string :=
  rev_string (digits_rev (S (N.to_nat (N.log2 n))) n).

Definition string_of_Z (z : Z) : string :=
  match z with
  | Z0 => "0"
  | Zpos p => string_of_N (Npos p)
  | Zneg p => "-" ++ string_of_N (Npos p)
  end.

(** [String(v)], i.e. what a template literal [`${v}`] inserts. *)
Fixpoint js_to_string (v : val) : string :=
  match v with
  | VUndef => "undefined"
  | VNull => "null"
  | VBool true => "true"
  | VBool false => "false"
  | VNum z => string_of_Z z
  | VStr s => s
  | VArr l =>
      (fix join (l : list val) : string :=
         match l with
         | [] => ""
         | [x] => match x with VUndef | VNull => "" | _ => js_to_string x end
         | x :: l' =>
             (match x with VUndef | VNull => "" | _ => js_to_string x end)
               ++ "," ++ join l'
         end) l
  | VObj _ => "[object Object]"
  end.

(** [o.k]: a read on [undefined] or [null] raises a [TypeError]; a missing
    key gives [undefined].  The keys this file reads ([response], [results],
    [remaining], [status], [id], [constraints], [sort], [cursor],
    [sort_field], [descending]) are no property of a primitive, an array or
    a string, so such a receiver gives [undefined] too. *)
Definition prop (v : val) (k : string) : result val :=
  match v with
  | VUndef | VNull => Exc TypeError
  | VObj fs => Ok (match assoc k fs with Some x => x | None => VUndef end)
  | _ => Ok VUndef
  end.

(** [o?.k]: optional chaining stops at [undefined] / [null]. *)
Definition prop_opt (v : val) (k : string) : val :=
  match v with
  | VObj fs => match assoc k fs with Some x => x | None => VUndef end
  | _ => VUndef
  end.

(** [a[i]]: an array or string index (out of range gives [undefined]), or
    the key ["i"] of an object. *)
Definition index (v : val) (i : nat) : result val :=
  match v with
  | VUndef | VNull => Exc TypeError
  | VArr l => Ok (nth i l VUndef)
  | VStr s => Ok (match String.get i s with Some c => VStr (String c "") | None => VUndef end)
  | VObj fs =>
      Ok (match assoc (string_of_Z (Z.of_nat i)) fs with Some x => x | None => VUndef end)
  | _ => Ok VUndef
  end.

(** Numeric prefix parsing for [ToNumber] on strings: ASCII white space is
    trimmed, the empty string is [0], an optional sign followed by decimal
    digits is that integer; anything else is [NaN] ([None]).  Numbers are
    integers in this development. *)
Definition is_space (c : ascii) : bool :=
  match nat_of_ascii c with 32 | 9 | 10 | 13 => true | _ => false end.

Fixpoint trim_left (s : string) : string :=
  match s with
  | String c s' => if is_space c then trim_left s' else s
  | "" => ""
  end.

Definition trim (s : string) : string :=
  rev_string (trim_left (rev_string (trim_left s))).

Fixpoint digits_value (s : string) (acc : Z) : option Z :=
  match s with
  | "" => Some acc
  | String c s' =>
      let n := Z.of_nat (nat_of_ascii c) in
      if andb (48 <=? n)%Z (n <=? 57)%Z
      then digits_value s' (acc * 10 + (n - 48))%Z
      else None
  end.

Definition string_to_number (s : string) : option Z :=
  match trim s with
  | "" => Some 0%Z
  | String "-" (String _ _ as d) => option_map Z.opp (digits_value d 0)
  | String "+" (String _ _ as d) => digits_value d 0
  | d => digits_value d 0
  end.

(** [ToNumber(v)]; [None] is [NaN].  Arrays and objects go through their
    string form, as [ToPrimitive] does for them. *)
Definition to_number (v : val) : option Z :=
  match v with
  | VUndef => None
  | VNull => Some 0%Z
  | VBool b => Some (if b then 1%Z else 0%Z)
  | VNum z => Some z
  | VStr s => string_to_number s
  | VArr _ | VObj _ => string_to_number (js_to_string v)
  end.

(** [v <= 0]: false whenever [v] converts to [NaN]. *)
Definition le_zero (v : val) : bool :=
  match to_number v with
  | Some z => (z <=? 0)%Z
  | None => false
  end.

(** [a !== b] against a string literal. *)
Definition strict_eq_str (v : val) (s : string) : bool :=
  match v with VStr s' => String.eqb s' s | _ => false end.

(** The own enumerable properties that [Object.assign] and the spread
    [{...v}] copy from a source value: none from [undefined], [null],
    booleans and numbers; the indices of a string or an array. *)
Definition own_props (v : val) : list (string * val) :=
  match v with
  | VObj fs => fold_left (fun acc kv => set_field (fst kv) (snd kv) acc) fs []
  | VArr l =>
      snd (fold_left (fun (st : nat * list (string * val)) x =>
                        (S (fst st), (snd st ++ [(string_of_Z (Z.of_nat (fst st)), x)])%list))
                     l (0, []))
  | VStr s =>
      snd (fold_left (fun (st : nat * list (string * val)) c =>
                        (S (fst st), (snd st ++ [(string_of_Z (Z.of_nat (fst st)), VStr (String c ""))])%list))
                     (list_ascii_of_string s) (0, []))
  | _ => []
  end.

(** [a.concat(x)]: an array argument is spread, any other value appended. *)
Definition concat_val (acc : list val) (x : val) : list val :=
  match x with
  | VArr l => (acc ++ l)%list
  | _ => (acc ++ [x])%list
  end.

(** ** Configuration, requests and the transport *)

(** Modelled from the spec: [BubbleConfig] ([src/BubbleConfig.ts] is not
    part of the sources).  It is the process-wide configuration holding the
    tenant application name, an optional application version label and the
    API key.  [BubbleConfig.get()] either returns it or throws; the client
    below is parametrised by that outcome and covers both. *)
Record config : Type := mkConfig {
  app : string;
  appVersion : option string;
  apiKey : string
}.

Inductive config_read : Type :=
| ConfigValue (c : config)
| ConfigThrows (e : exn).

(** One call into axios: [axios.get(url, {headers, params})],
    [axios.post(url, body, {headers})] or [axios.patch(url, body, {headers})]. *)
Record request : Type := mkRequest {
  req_method : string;
  req_url : string;
  req_headers : list (string * string);
  req_params : list (string * val);
  req_body : val
}.

(** What the awaited axios promise settles to: the response body
    [res.data], or a rejection (network error, HTTP error status). *)
Inductive outcome : Type :=
| Response (data : val)
| Failure (e : exn).

(** ** The client monad: a log of issued requests, and exceptions *)

Definition M (A : Type) : Type := list request -> result A * list request.

Definition ret {A} (a : A) : M A := fun log => (Ok a, log).

Definition bind {A B} (m : M A) (f : A -> M B) : M B :=
  fun log =>
    match m log with
    | (Ok a, log') => f a log'
    | (Exc e, log') => (Exc e, log')
    | (OutOfFuel, log') => (OutOfFuel, log')
    end.

Definition throw {A} (e : exn) : M A := fun log => (Exc e, log).

Definition lift {A} (r : result A) : M A := fun log => (r, log).

Notation "x <- m ;; k" := (bind m (fun x => k))
  (at level 61, m at next level, right associativity).

(** The subclass instance: the class's declared type name [type] and the own
    enumerable properties that [Object.assign(this, args)] put on it. *)
Record instance : Type := mkInstance {
  inst_type : string;
  inst_fields : list (string * val)
}.

(** [new this(args)]. *)
Definition construct (tn : string) (args : val) : instance :=
  {| inst_type := tn; inst_fields := own_props args |}.

(** [this._id]. *)
Definition inst_id (i : instance) : val :=
  match assoc "_id" (inst_fields i) with Some v => v | None => VUndef end.

Section Client.

(** What [BubbleConfig.get()] does in this process. *)
Variable BubbleConfig_get : config_read.
(** The HTTP transport: the outcome of the [n]-th request issued. *)
Variable server : nat -> request -> outcome.
(** The platform's [JSON.stringify]. *)
Variable JSON_stringify : val -> string.
(** The [type] declared by the concrete subclass [this]. *)
Variable type : string.

Definition get_config : M config :=
  match BubbleConfig_get with
  | ConfigValue c => ret c
  | ConfigThrows e => throw e
  end.

(** [await axios.<method>(...)]: the request is issued (logged), then the
    promise resolves to the body or rejects. *)
Definition http (r : request) : M val :=
  fun log =>
    match server (length log) r with
    | Response d => (Ok d, (log ++ [r])%list)
    | Failure e => (Exc e, (log ++ [r])%list)
    end.

(** [private get headers()]. *)
Definition headers : M (list (string * string)) :=
  c <- get_config ;;
  ret [("Authorization", "Bearer " ++ apiKey c)].

Definition versionPart (v : option string) : string :=
  match v with
  | Some s => if truthy (VStr s) then "/" ++ s else ""
  | None => ""
  end.

(** [private get objectUrl()], for an object whose [type] is [tn]. *)
Definition objectUrl_of (tn : string) : M string :=
  c <- get_config ;;
  ret ("https://" ++ app c ++ ".bubbleapps.io" ++ versionPart (appVersion c)
         ++ "/api/1.1/obj/" ++ tn).

(** [const { objectUrl, headers } = new this({})]: both getters, in this order. *)
Definition url_and_headers : M (string * list (string * string)) :=
  let _ := construct type (VObj []) in
  u <- objectUrl_of type ;;
  h <- headers ;;
  ret (u, h).

(** ** The operations of [BubbleDataType] *)

(** [static async getByID(id)]. *)
Definition getByID (id : string) : M instance :=
  uh <- url_and_headers ;;
  data <- http (mkRequest "GET" (fst uh ++ "/" ++ id) (snd uh) [] VUndef) ;;
  if negb (truthy data)
  then throw (Error "Unexpected response from bubble: no body")
  else
    r <- lift (prop data "response") ;;
    ret (construct type r).

(** [static async create(data)]. *)
Definition create (body : val) : M val :=
  uh <- url_and_headers ;;
  data <- http (mkRequest "POST" (fst uh ++ "/") (snd uh) [] body) ;;
  if negb (truthy data)
  then throw (Error "Unexpected response from bubble: no body")
  else
    status <- lift (prop data "status") ;;
    failed <- (if negb (strict_eq_str status "success") then ret true
               else id <- lift (prop data "id") ;; ret (negb (truthy id))) ;;
    if failed
    then throw (Error ("create request failed with status: " ++ js_to_string status))
    else lift (prop data "id").

(** The [params] object of a search request. *)
Definition search_params (config : val) : M (list (string * val)) :=
  constraints <- lift (prop config "constraints") ;;
  sort <- lift (prop config "sort") ;;
  cursor <- lift (prop config "cursor") ;;
  ret [("constraints",
        VStr (JSON_stringify (if truthy constraints then constraints else VArr [])));
       ("sort_field", prop_opt sort "sort_field");
       ("descending",
        if truthy (prop_opt sort "descending") then VStr "true" else VBool false);
       ("cursor", cursor)].

(** [static async search(config = {})]. *)
Definition search (config0 : val) : M val :=
  let config := match config0 with VUndef => VObj [] | _ => config0 end in
  uh <- url_and_headers ;;
  params <- search_params config ;;
  data <- http (mkRequest "GET" (fst uh) (snd uh) params VUndef) ;;
  let response := prop_opt data "response" in
  if negb (truthy response)
  then throw (Error "search request failed")
  else ret response.

(** The body of the [while (true)] loop of [getAll], on fuel. *)
Fixpoint getAll_loop (fuel : nat) (config : val) (cursor : Z) (results : list val)
  : M (list val) :=
  match fuel with
  | O => lift OutOfFuel
  | S fuel' =>
      res <- search (VObj (set_field "cursor" (VNum cursor) (own_props config))) ;;
      page <- lift (prop res "results") ;;
      let results := concat_val results page in
      remaining <- lift (prop res "remaining") ;;
      if le_zero remaining
      then ret results
      else getAll_loop fuel' config (cursor + 1) results
  end.

(** [static async getAll(config)]: [let cursor = 0; let results = [];]. *)
Definition getAll (fuel : nat) (config : val) : M (list val) :=
  getAll_loop fuel config 0 [].

(** [static async getOne(config)]. *)
Definition getOne (config : val) : M val :=
  searchResults <- search config ;;
  response <- lift (prop searchResults "response") ;;
  results <- lift (prop response "results") ;;
  first <- lift (index results 0) ;;
  ret (if truthy first then first else VNull).

(** [async save()]. *)
Definition save (self : instance) : M unit :=
  objectUrl <- objectUrl_of (inst_type self) ;;
  hs <- headers ;;
  if negb (truthy (inst_id self))
  then throw (Error "Cannot call save on a BubbleDataType without an _id value.")
  else
    _ <- http (mkRequest "PATCH" (objectUrl ++ "/" ++ js_to_string (inst_id self))
                         hs [] (VObj (inst_fields self))) ;;
    ret tt.

End Client.

(** ** Shapes used in the statements *)

(** The collection URL the code builds for configuration [c] and type [tn]. *)
Definition collection_url (c : config) (tn : string) : string :=
  "https://" ++ app c ++ ".bubbleapps.io" ++ versionPart (appVersion c)
    ++ "/api/1.1/obj/" ++ tn.

Definition auth_header (c : config) : list (string * string) :=
  [("Authorization", "Bearer " ++ apiKey c)].

(** A search page: its [results] array and its [remaining] count. *)
Definition page : Type := (list val * val)%type.

(** The payload [res.data.response] of a search page, and the body
    [{ response: { results, remaining } }] of the API contract. *)
Definition page_payload (p : page) : val :=
  VObj [("results", VArr (fst p)); ("remaining", snd p)].

Definition page_body (p : page) : val := VObj [("response", page_payload p)].

(** The exception [search] raises on a transport outcome, if any: the
    rejection itself, or its own error when [res.data?.response] is falsy. *)
Definition search_raises (o : outcome) : option exn :=
  match o with
  | Failure e => Some e
  | Response d =>
      if truthy (prop_opt d "response") then None
      else Some (Error "search request failed")
  end.

(** The [cursor] query parameter of a request. *)
Definition req_cursor (r : request) : option val := assoc "cursor" (req_params r).

(** Every request a computation appends to the log satisfies [P]. *)
Definition issues_only {A} (P : request -> Prop) (m : M A) : Prop :=
  forall log, exists reqs, snd (m log) = (log ++ reqs)%list /\ Forall P reqs.

(** The collection URL in the words of the spec: the version segment is
    present exactly when a version label is set. *)
Definition spec_collection_url (c : config) (tn : string) : string :=
  "https://" ++ app c ++ ".bubbleapps.io"
    ++ (match appVersion c with Some v => "/" ++ v | None => "" end)
    ++ "/api/1.1/obj/" ++ tn.

(** A request to the collection URL with the authorisation header. *)
Definition to_collection (tn : string) (c : config) (r : request) : Prop :=
  req_url r = collection_url c tn /\ req_headers r = auth_header c.

(** ** Concrete inputs *)

(** The configuration of the concrete runs below. *)
Definition demo_config : config := mkConfig "myapp" (Some "version-test") "KEY".

(** A served store of two pages: two records with three remaining, then
    the last record with nothing remaining. *)
Definition demo_front : list page := [([VStr "a"; VStr "b"], VNum 3)].

Definition demo_last : page := ([VStr "c"], VNum 0).

Definition demo_server (i : nat) (_ : request) : outcome :=
  Response (page_body (nth i (demo_front ++ [demo_last]) ([], VUndef))).

Definition demo_stringify (_ : val) : string := "[]".

(** A configuration whose version label is the empty string. *)
Definition empty_version_config : config := mkConfig "myapp" (Some "") "KEY".

(** A store with no matching record; a store failing on its second page;
    a store with one matching record. *)
Definition empty_server (_ : nat) (_ : request) : outcome :=
  Response (page_body ([], VNum 0)).

Definition failing_server (i : nat) (_ : request) : outcome :=
  match i with
  | O => Response (page_body ([VStr "a"], VNum 5))
  | _ => Failure (External 503)
  end.

Definition one_record_server (_ : nat) (_ : request) : outcome :=
  Response (page_body ([VObj [("_id", VStr "1612345x1")]], VNum 0)).

(** The example of the spec: constraints [status equals open], sorted on
    [createdAt], descending. *)
Definition example_search_fields : list (string * val) :=
  [("constraints",
    VArr [VObj [("key", VStr "status"); ("constraint_type", VStr "equals");
                ("value", VStr "open")]]);
   ("sort", VObj [("sort_field", VStr "createdAt"); ("descending", VBool true)])].

(** A successful [create] response, and a body with no [response]. *)
Definition created_server (_ : nat) (_ : request) : outcome :=
  Response (VObj [("status", VStr "success"); ("id", VStr "1612345x9")]).

Definition status_only_server (_ : nat) (_ : request) : outcome :=
  Response (VObj [("status", VStr "NOT_FOUND")]).

(** Pages that never report [remaining]; a last page without [results]. *)
Definition no_remaining_server (_ : nat) (_ : request) : outcome :=
  Response (VObj [("response", VObj [("results", VArr [VStr "a"])])]).

Definition no_results_server (_ : nat) (_ : request) : outcome :=
  Response (VObj [("response", VObj [("remaining", VNum 0)])]).

(** A server rejecting every request. *)
Definition refusing_server (_ : nat) (_ : request) : outcome := Failure (External 503).

(** The value a key has in an object literal listing [fs]: the last one
    given for it. *)
Definition last_value (k : string) (fs : list (string * val)) : option val :=
  fold_left (fun o kv => if String.eqb k (fst kv) then Some (snd kv) else o) fs None.

(** A computation that issues no request. *)
Definition keeps_log {A} (m : M A) : Prop := forall log, snd (m log) = log.

(** A stored record [{_id, name}], served by [getByID] and then saved. *)
Definition stored_fields : list (string * val) :=
  [("_id", VStr "1612345x1"); ("name", VStr "Ada")].

Definition record_server (_ : nat) (_ : request) : outcome :=
  Response (VObj [("response", VObj stored_fields)]).

(** An empty response body, as axios gives it. *)
Definition empty_body_server (_ : nat) (_ : request) : outcome := Response (VStr "").

(** ** Monad and value lemmas *)

Lemma bind_ok {A B} (m : M A) (f : A -> M B) log a log' :
  m log = (Ok a, log') -> bind m f log = f a log'.
Proof. intros H. unfold bind. now rewrite H. Qed.

Lemma bind_exc {A B} (m : M A) (f : A -> M B) log e log' :
  m log = (Exc e, log') -> bind m f log = (Exc e, log').
Proof. intros H. unfold bind. now rewrite H. Qed.

Lemma assoc_set_field_same k v fs : assoc k (set_field k v fs) = Some v.
Proof.
  induction fs as [|[k' v'] fs IH]; cbn.
  - now rewrite String.eqb_refl.
  - destruct (String.eqb k k') eqn:E; cbn.
    + now rewrite E.
    + now rewrite E.
Qed.

Lemma prop_obj fs k : prop (VObj fs) k = Ok (prop_opt (VObj fs) k).
Proof. reflexivity. Qed.

Lemma prop_truthy v k : truthy v = true -> prop v k = Ok (prop_opt v k).
Proof. destruct v; cbn; congruence. Qed.

Section Lemmas.
Local Open Scope list_scope.

Variable B : config_read.
Variable server : nat -> request -> outcome.
Variable js : val -> string.
Variable tn : string.
Variable c : config.
Hypothesis Hconf : B = ConfigValue c.

Lemma get_config_ok log : get_config B log = (Ok c, log).
Proof. unfold get_config. now rewrite Hconf. Qed.

Lemma url_and_headers_ok log :
  url_and_headers B tn log = (Ok (collection_url c tn, auth_header c), log).
Proof.
  unfold url_and_headers, objectUrl_of, headers, get_config, bind, ret.
  now rewrite Hconf.
Qed.

(** One search call on an object configuration: exactly one request is
    issued, to the collection URL, carrying the configuration's [cursor]. *)
Lemma search_obj fs log :
  exists req,
    req_url req = collection_url c tn /\
    req_headers req = auth_header c /\
    req_method req = "GET" /\
    req_cursor req = Some (prop_opt (VObj fs) "cursor") /\
    assoc "descending" (req_params req) =
      Some (if truthy (prop_opt (prop_opt (VObj fs) "sort") "descending")
            then VStr "true" else VBool false) /\
    search B server js tn (VObj fs) log =
      (match server (length log) req with
       | Response d =>
           if truthy (prop_opt d "response") then Ok (prop_opt d "response")
           else Exc (Error "search request failed")
       | Failure e => Exc e
       end, (log ++ [req])%list).
Proof.
  unfold search.
  rewrite (bind_ok _ _ _ _ log) by apply url_and_headers_ok.
  cbn [fst snd].
  unfold search_params. rewrite !prop_obj. cbn [bind lift ret]. unfold http.

  unfold bind, throw, ret. cbn beta iota. match goal with |- context [server _ ?r] => exists r end.
  split; [reflexivity|split; [reflexivity|split; [reflexivity|split; [reflexivity|split; [reflexivity|]]]]].
  destruct (server (length log) _) as [d|e]; [|reflexivity].
  destruct (truthy (prop_opt d "response")); reflexivity.
Qed.

Lemma getAll_loop_S fuel cfgv cursor results :
  getAll_loop B server js tn (S fuel) cfgv cursor results =
  (res <- search B server js tn
            (VObj (set_field "cursor" (VNum cursor) (own_props cfgv))) ;;
   page <- lift (prop res "results") ;;
   let results := concat_val results page in
   remaining <- lift (prop res "remaining") ;;
   if le_zero remaining then ret results
   else getAll_loop B server js tn fuel cfgv (cursor + 1) results).
Proof. reflexivity. Qed.

(** One iteration of the page loop on a served page [p]: one request at
    cursor [k], the page's results appended, then the [remaining] test. *)
Lemma getAll_loop_page fuel cfgv k acc log (p : page) :
  length log = k ->
  (forall r, server k r = Response (page_body p)) ->
  exists req,
    req_url req = collection_url c tn /\ req_headers req = auth_header c /\
    req_cursor req = Some (VNum (Z.of_nat k)) /\
    getAll_loop B server js tn (S fuel) cfgv (Z.of_nat k) acc log =
      (if le_zero (snd p) then ret ((acc ++ fst p)%list)
       else getAll_loop B server js tn fuel cfgv (Z.of_nat k + 1) (acc ++ fst p))
        ((log ++ [req])%list).
Proof.
  intros Hlen Hsrv.
  rewrite getAll_loop_S.
  destruct (search_obj (set_field "cursor" (VNum (Z.of_nat k)) (own_props cfgv)) log)
    as [req [Hu [Hh [_ [Hc [_ Hs]]]]]].
  exists req. split; [exact Hu|split; [exact Hh|split]].
  - rewrite Hc. cbn. now rewrite assoc_set_field_same.
  - rewrite Hlen, Hsrv in Hs. cbn in Hs.
    rewrite (bind_ok _ _ _ _ _ Hs).
    reflexivity.
Qed.

(** One iteration on a request whose search raises [e] (a rejected
    transport promise, or a body without a [response] payload): that
    exception is the outcome of the whole loop. *)
Lemma getAll_loop_fail fuel cfgv k acc log e :
  length log = k ->
  (forall r, search_raises (server k r) = Some e) ->
  exists req,
    req_cursor req = Some (VNum (Z.of_nat k)) /\
    getAll_loop B server js tn (S fuel) cfgv (Z.of_nat k) acc log =
      (Exc e, (log ++ [req])%list).
Proof.
  intros Hlen Hsrv.
  rewrite getAll_loop_S.
  destruct (search_obj (set_field "cursor" (VNum (Z.of_nat k)) (own_props cfgv)) log)
    as [req [_ [_ [_ [Hc [_ Hs]]]]]].
  exists req. split.
  - rewrite Hc. cbn. now rewrite assoc_set_field_same.
  - rewrite Hlen in Hs. specialize (Hsrv req).
    unfold search_raises in Hsrv.
    destruct (server k req) as [d|e'].
    + destruct (truthy (prop_opt d "response")); [discriminate|].
      injection Hsrv as <-. exact (bind_exc _ _ _ _ _ Hs).
    + injection Hsrv as <-. exact (bind_exc _ _ _ _ _ Hs).
Qed.

(** The pages before the last one: each has a positive [remaining], so the
    loop goes through all of them in cursor order. *)
Lemma getAll_loop_front cfgv (front : list page) fuel k acc log :
  length log = k ->
  Forall (fun p : page => le_zero (snd p) = false) front ->
  (forall i r, i < length front ->
     server (k + i) r = Response (page_body (nth i front ([], VUndef)))) ->
  exists reqs,
    getAll_loop B server js tn (length front + fuel) cfgv (Z.of_nat k) acc log =
    getAll_loop B server js tn fuel cfgv (Z.of_nat (k + length front))
      (acc ++ flat_map fst front) (log ++ reqs)
    /\ length reqs = length front
    /\ map req_cursor reqs = map (fun n => Some (VNum (Z.of_nat n))) (seq k (length front))
    /\ Forall (fun r => req_url r = collection_url c tn /\ req_headers r = auth_header c) reqs.
Proof.
  revert k acc log.
  induction front as [|p front IH]; intros k acc log Hlen Hle Hsrv.
  - exists []. cbn. rewrite !app_nil_r, Nat.add_0_r. repeat split; constructor.
  - apply Forall_cons_iff in Hle as [Hp Hfront]. subst k.
    cbn [length] in *.
    destruct (getAll_loop_page (length front + fuel) cfgv (length log) acc log p eq_refl)
      as [req [Hu [Hh [Hc Hstep]]]].
    { intros r. rewrite <- (Nat.add_0_r (length log)). apply (Hsrv 0 r). lia. }
    rewrite Nat.add_succ_l, Hstep, Hp.
    replace (Z.of_nat (length log) + 1)%Z with (Z.of_nat (S (length log))) by lia.
    destruct (IH (S (length log)) (acc ++ fst p) (log ++ [req])%list) as
      [reqs [Heq [Hn [Hcs Hall]]]].
    + rewrite length_app. cbn. lia.
    + exact Hfront.
    + intros i r Hi. replace (S (length log) + i) with (length log + S i) by lia.
      apply (Hsrv (S i) r). lia.
    + exists (req :: reqs). split; [|split; [|split]].
      * rewrite Heq. cbn [flat_map]. rewrite <- !app_assoc.
        f_equal. lia.
      * cbn. now rewrite Hn.
      * cbn [map seq]. rewrite Hc, Hcs. reflexivity.
      * constructor; [split; assumption|exact Hall].
Qed.

Lemma objectUrl_ok tn' log :
  objectUrl_of B tn' log = (Ok (collection_url c tn'), log).
Proof. unfold objectUrl_of, get_config, bind, ret. now rewrite Hconf. Qed.

Lemma headers_ok log : headers B log = (Ok (auth_header c), log).
Proof. unfold headers, get_config, bind, ret. now rewrite Hconf. Qed.

(** [create] on a response body [d], in the order of its tests. *)
Lemma create_response body log d :
  (forall r, server (length log) r = Response d) ->
  fst (create B server tn body log) =
    if negb (truthy d) then Exc (Error "Unexpected response from bubble: no body")
    else if negb (strict_eq_str (prop_opt d "status") "success")
            || negb (truthy (prop_opt d "id"))
    then Exc (Error ("create request failed with status: "
                       ++ js_to_string (prop_opt d "status")))
    else Ok (prop_opt d "id").
Proof.
  intros Hsrv. unfold create.
  rewrite (bind_ok _ _ _ _ _ (url_and_headers_ok log)).
  unfold bind at 1, http. rewrite Hsrv.
  destruct (truthy d) eqn:Ht; [|reflexivity].
  cbn [negb]. unfold bind, lift, ret, throw.
  rewrite !(prop_truthy d) by exact Ht.
  destruct (strict_eq_str (prop_opt d "status") "success"); cbn [negb orb];
    [|reflexivity].
  destruct (truthy (prop_opt d "id")); reflexivity.
Qed.

(** One iteration of the page loop on any payload object [fs]. *)
Lemma getAll_loop_obj fuel cfgv cursor acc log fs :
  (forall r, server (length log) r = Response (VObj [("response", VObj fs)])) ->
  exists req,
    req_cursor req = Some (VNum cursor) /\
    getAll_loop B server js tn (S fuel) cfgv cursor acc log =
      (if le_zero (prop_opt (VObj fs) "remaining")
       then ret (concat_val acc (prop_opt (VObj fs) "results"))
       else getAll_loop B server js tn fuel cfgv (cursor + 1)
              (concat_val acc (prop_opt (VObj fs) "results")))
        ((log ++ [req])%list).
Proof.
  intros Hsrv.
  rewrite getAll_loop_S.
  destruct (search_obj (set_field "cursor" (VNum cursor) (own_props cfgv)) log)
    as [req [_ [_ [_ [Hc [_ Hs]]]]]].
  exists req. split.
  - rewrite Hc. cbn. now rewrite assoc_set_field_same.
  - rewrite Hsrv in Hs. cbn in Hs.
    rewrite (bind_ok _ _ _ _ _ Hs).
    reflexivity.
Qed.

End Lemmas.

(** ** getAll: pagination *)

(** C2: with pages [front ++ [last]] served in order, where every page of
    [front] reports a positive [remaining] and [last] reports zero or less,
    [getAll] issues one search per page with cursors [0, 1, ..., N-1] against
    the collection URL, and returns the concatenation of the pages' [results]
    arrays in request order. *)
Theorem getAll_concatenates_pages (B : config_read) server js tn c
    (front : list page) (last : page) fuel cfgv :
  B = ConfigValue c ->
  Forall (fun p : page => le_zero (snd p) = false) front ->
  le_zero (snd last) = true ->
  (forall i r, i <= length front ->
     server i r = Response (page_body (nth i (front ++ [last]) ([], VUndef)))) ->
  length front < fuel ->
  exists reqs,
    getAll B server js tn fuel cfgv [] = (Ok (flat_map fst (front ++ [last])), reqs) /\
    map req_cursor reqs = map (fun n => Some (VNum (Z.of_nat n))) (seq 0 (S (length front))) /\
    Forall (fun r => req_url r = collection_url c tn /\ req_headers r = auth_header c) reqs.
Proof.
  intros Hconf Hfront Hlast Hsrv Hfuel.
  destruct (Nat.lt_exists_pred _ _ Hfuel) as [f [Hf _]].
  replace fuel with (length front + S (f - length front)) by lia.
  unfold getAll.
  destruct (getAll_loop_front B server js tn c Hconf cfgv front (S (f - length front)) 0 [] []
              eq_refl Hfront) as [reqs [Heq [Hn [Hcs Hall]]]].
  { intros i r Hi. rewrite Nat.add_0_l, Hsrv by lia. now rewrite app_nth1. }
  change 0%Z with (Z.of_nat 0). rewrite Heq. cbn [Nat.add List.app].
  destruct (getAll_loop_page B server js tn c Hconf (f - length front) cfgv
              (length front) (flat_map fst front) reqs last Hn) as [req [Hu [Hh [Hc Hstep]]]].
  { intros r. rewrite Hsrv by lia. rewrite app_nth2 by lia. now rewrite Nat.sub_diag. }
  rewrite Hstep, Hlast.
  exists (reqs ++ [req])%list. split; [|split].
  - rewrite flat_map_app. cbn. now rewrite app_nil_r.
  - rewrite map_app, Hcs, seq_S, map_app. cbn. now rewrite Hc.
  - apply Forall_app. split; [exact Hall|]. constructor; [split; assumption|constructor].
Qed.

Lemma getAll_concatenates_pages_witness :
  exists reqs,
    getAll (ConfigValue demo_config) demo_server demo_stringify "user" 5 (VObj []) [] =
      (Ok (flat_map fst (demo_front ++ [demo_last])), reqs) /\
    map req_cursor reqs = map (fun n => Some (VNum (Z.of_nat n))) (seq 0 (S (length demo_front))) /\
    Forall (fun r => req_url r = collection_url demo_config "user" /\
                     req_headers r = auth_header demo_config) reqs.
Proof.
  apply (getAll_concatenates_pages (ConfigValue demo_config) demo_server demo_stringify
           "user" demo_config demo_front demo_last 5 (VObj [])).
  - reflexivity.
  - repeat constructor.
  - reflexivity.
  - intros i r _. reflexivity.
  - cbn. lia.
Defined.

(** C3: when the first page has no results and [remaining] is zero,
    [getAll] returns the empty sequence after exactly one request, the one
    at cursor 0. *)
Theorem getAll_no_match_one_request (B : config_read) server js tn c fuel cfgv :
  B = ConfigValue c ->
  (forall r, server 0 r = Response (page_body ([], VNum 0))) ->
  0 < fuel ->
  exists req,
    getAll B server js tn fuel cfgv [] = (Ok [], [req]) /\
    req_cursor req = Some (VNum 0).
Proof.
  intros Hconf Hsrv Hfuel.
  destruct fuel as [|fuel]; [lia|].
  unfold getAll. change 0%Z with (Z.of_nat 0).
  destruct (getAll_loop_page B server js tn c Hconf fuel cfgv 0 [] [] ([], VNum 0)
              eq_refl Hsrv) as [req [_ [_ [Hc Hstep]]]].
  rewrite Hstep. exists req. split; [reflexivity|exact Hc].
Qed.

Lemma getAll_no_match_one_request_witness :
  exists req,
    getAll (ConfigValue demo_config) empty_server demo_stringify "user" 1
      (VObj [("constraints", VArr [])]) [] = (Ok [], [req]) /\
    req_cursor req = Some (VNum 0).
Proof.
  apply (getAll_no_match_one_request (ConfigValue demo_config) empty_server
           demo_stringify "user" demo_config 1).
  - reflexivity.
  - intros r. reflexivity.
  - lia.
Defined.

(** C8: when the pages of [front] (each with a positive [remaining]) are
    served and the next search raises [e] (a rejected request, or a body
    without a [response] payload), [getAll] ends in that exception after
    [length front + 1] requests: no results are returned. *)
Theorem getAll_failure_propagates (B : config_read) server js tn c
    (front : list page) e fuel cfgv :
  B = ConfigValue c ->
  Forall (fun p : page => le_zero (snd p) = false) front ->
  (forall i r, i < length front ->
     server i r = Response (page_body (nth i front ([], VUndef)))) ->
  (forall r, search_raises (server (length front) r) = Some e) ->
  length front < fuel ->
  exists reqs,
    getAll B server js tn fuel cfgv [] = (Exc e, reqs) /\
    length reqs = S (length front).
Proof.
  intros Hconf Hfront Hsrv Hfail Hfuel.
  destruct (Nat.lt_exists_pred _ _ Hfuel) as [f [Hf _]].
  replace fuel with (length front + S (f - length front)) by lia.
  unfold getAll.
  destruct (getAll_loop_front B server js tn c Hconf cfgv front (S (f - length front)) 0 [] []
              eq_refl Hfront) as [reqs [Heq [Hn _]]].
  { intros i r Hi. rewrite Nat.add_0_l. now apply Hsrv. }
  change 0%Z with (Z.of_nat 0). rewrite Heq. cbn [Nat.add List.app].
  destruct (getAll_loop_fail B server js tn c Hconf (f - length front) cfgv
              (length front) (flat_map fst front) reqs e Hn Hfail) as [req [_ Hstep]].
  rewrite Hstep. exists (reqs ++ [req])%list. split; [reflexivity|].
  rewrite length_app, Hn. cbn. lia.
Qed.

Lemma getAll_failure_propagates_witness :
  exists reqs,
    getAll (ConfigValue demo_config) failing_server demo_stringify "user" 10 (VObj []) [] =
      (Exc (External 503), reqs) /\
    length reqs = 2.
Proof.
  apply (getAll_failure_propagates (ConfigValue demo_config) failing_server demo_stringify
           "user" demo_config [([VStr "a"], VNum 5)] (External 503) 10 (VObj [])).
  - reflexivity.
  - repeat constructor.
  - intros i r Hi. destruct i; [reflexivity|cbn in Hi; lia].
  - intros r. reflexivity.
  - cbn. lia.
Defined.

(** ** getOne *)

(** C1 (what the code does): [search] already returns the payload
    [res.data.response], so [searchResults.response] is [undefined] on every
    page of the API contract and reading [.results] from it raises a
    [TypeError]: [getOne] fails after its single request, with or without
    results. *)
Theorem getOne_raises_on_every_page (B : config_read) server js tn c fs (p : page) :
  B = ConfigValue c ->
  (forall r, server 0 r = Response (page_body p)) ->
  exists req, getOne B server js tn (VObj fs) [] = (Exc TypeError, [req]).
Proof.
  intros Hconf Hsrv.
  destruct (search_obj B server js tn c Hconf fs []) as [req [_ [_ [_ [_ [_ Hs]]]]]].
  cbn [length] in Hs. rewrite Hsrv in Hs. cbn in Hs.
  exists req. unfold getOne.
  rewrite (bind_ok _ _ _ _ _ Hs).
  reflexivity.
Qed.

Lemma getOne_raises_on_every_page_witness :
  exists req,
    getOne (ConfigValue demo_config) one_record_server demo_stringify "user" (VObj []) [] =
      (Exc TypeError, [req]).
Proof.
  apply (getOne_raises_on_every_page (ConfigValue demo_config) one_record_server
           demo_stringify "user" demo_config [] ([VObj [("_id", VStr "1612345x1")]], VNum 0)).
  - reflexivity.
  - intros r. reflexivity.
Defined.

(** ** search: the [descending] parameter *)

(** C6: the request issued by [search] carries [descending = "true"] when
    [config.sort?.descending] is truthy and the boolean [false] otherwise
    (in particular when [sort] is absent); it is never the string ["false"]. *)
Theorem search_descending_param (B : config_read) server js tn c fs log :
  B = ConfigValue c ->
  exists req,
    snd (search B server js tn (VObj fs) log) = (log ++ [req])%list /\
    assoc "descending" (req_params req) =
      Some (if truthy (prop_opt (prop_opt (VObj fs) "sort") "descending")
            then VStr "true" else VBool false) /\
    (assoc "sort" fs = None -> assoc "descending" (req_params req) = Some (VBool false)) /\
    assoc "descending" (req_params req) <> Some (VStr "false").
Proof.
  intros Hconf.
  destruct (search_obj B server js tn c Hconf fs log) as [req [_ [_ [_ [_ [Hd Hs]]]]]].
  exists req. rewrite Hs, Hd. split; [reflexivity|split; [reflexivity|split]].
  - intros Hnone. cbn. now rewrite Hnone.
  - destruct (truthy _); congruence.
Qed.

Lemma search_descending_param_witness :
  exists req,
    snd (search (ConfigValue demo_config) demo_server demo_stringify "user"
           (VObj example_search_fields) []) = ([] ++ [req])%list /\
    assoc "descending" (req_params req) =
      Some (if truthy (prop_opt (prop_opt (VObj example_search_fields) "sort") "descending")
            then VStr "true" else VBool false) /\
    (assoc "sort" example_search_fields = None ->
     assoc "descending" (req_params req) = Some (VBool false)) /\
    assoc "descending" (req_params req) <> Some (VStr "false").
Proof.
  apply (search_descending_param (ConfigValue demo_config) demo_server demo_stringify
           "user" demo_config example_search_fields []).
  reflexivity.
Defined.

(** The request of the spec's example carries the string ["true"]. *)
Example example_search_descending_true :
  option_map (fun r => assoc "descending" (req_params r))
    (hd_error (snd (search (ConfigValue demo_config) demo_server demo_stringify "user"
                      (VObj example_search_fields) [])))
  = Some (Some (VStr "true")).
Proof. vm_compute. reflexivity. Qed.

(** ** save *)

(** C4, as the code has it: [save] reads the configuration (through the
    [objectUrl] and [headers] getters) before testing [_id]. With a
    readable configuration, an instance whose [_id] is falsy (missing or
    empty) makes [save] raise its precondition error with no request
    issued; an instance with an [_id] makes it issue exactly one [PATCH] to
    [{collection}/{_id}] carrying the instance's fields, whose rejection is
    propagated unchanged and whose response body, whatever it is, is not
    inspected. When reading the configuration throws, that failure is
    raised instead, for every instance, with no request issued. *)
Theorem save_precondition_then_patch (B : config_read) server inst log :
  (forall c, B = ConfigValue c ->
    (truthy (inst_id inst) = false ->
       save B server inst log =
         (Exc (Error "Cannot call save on a BubbleDataType without an _id value."), log)) /\
    (truthy (inst_id inst) = true ->
       let req := mkRequest "PATCH"
                    (collection_url c (inst_type inst) ++ "/" ++ js_to_string (inst_id inst))
                    (auth_header c) [] (VObj (inst_fields inst)) in
       save B server inst log =
         (match server (length log) req with
          | Response _ => Ok tt
          | Failure e => Exc e
          end, (log ++ [req])%list))) /\
  (forall e, B = ConfigThrows e -> save B server inst log = (Exc e, log)).
Proof.
  split.
  - intros c Hconf. unfold save.
    rewrite (bind_ok _ _ _ _ _ (objectUrl_ok B c Hconf (inst_type inst) log)).
    rewrite (bind_ok _ _ _ _ _ (headers_ok B c Hconf log)).
    split; intros Hid; rewrite Hid; [reflexivity|].
    cbn [negb]. unfold bind, http, ret.
    destruct (server (length log) _); reflexivity.
  - intros e Hconf. unfold save, objectUrl_of, get_config, bind, throw.
    now rewrite Hconf.
Qed.

Lemma save_precondition_then_patch_witness :
  ((truthy (inst_id (mkInstance "user" [])) = false ->
      save (ConfigValue demo_config) demo_server (mkInstance "user" []) [] =
        (Exc (Error "Cannot call save on a BubbleDataType without an _id value."), [])) /\
   (truthy (inst_id (mkInstance "user" [])) = true ->
      let req := mkRequest "PATCH"
                   (collection_url demo_config "user" ++ "/"
                      ++ js_to_string (inst_id (mkInstance "user" [])))
                   (auth_header demo_config) [] (VObj []) in
      save (ConfigValue demo_config) demo_server (mkInstance "user" []) [] =
        (match demo_server 0 req with
         | Response _ => Ok tt
         | Failure e => Exc e
         end, ([] ++ [req])%list))) /\
  save (ConfigThrows (External 1)) demo_server (mkInstance "user" []) [] =
    (Exc (External 1), []).
Proof.
  split.
  - apply (proj1 (save_precondition_then_patch (ConfigValue demo_config) demo_server
                    (mkInstance "user" []) []) demo_config).
    reflexivity.
  - apply (proj2 (save_precondition_then_patch (ConfigThrows (External 1)) demo_server
                    (mkInstance "user" []) []) (External 1)).
    reflexivity.
Defined.

(** C4, as stated, fails when reading the configuration throws: [save] on an
    instance without [_id] then raises that failure, not its precondition
    error (no request is issued either way). *)
Lemma save_precondition_counterexample :
  save (ConfigThrows (External 1)) demo_server (mkInstance "user" []) [] =
    (Exc (External 1), []) /\
  fst (save (ConfigThrows (External 1)) demo_server (mkInstance "user" []) [])
    <> Exc (Error "Cannot call save on a BubbleDataType without an _id value.").
Proof. vm_compute. split; [reflexivity|discriminate]. Qed.

(** C9: the getters [objectUrl] and [headers] are read before the [_id]
    test, so a failure of [BubbleConfig.get()] is what [save] raises, for
    every instance, with no request issued. *)
Theorem save_config_failure_preempts (B : config_read) server inst log e :
  B = ConfigThrows e ->
  save B server inst log = (Exc e, log).
Proof.
  intros Hconf. unfold save, objectUrl_of, get_config, bind, throw.
  now rewrite Hconf.
Qed.

Lemma save_config_failure_preempts_witness :
  save (ConfigThrows (External 7)) demo_server (mkInstance "user" [("name", VStr "x")]) [] =
    (Exc (External 7), []).
Proof.
  apply (save_config_failure_preempts (ConfigThrows (External 7)) demo_server
           (mkInstance "user" [("name", VStr "x")]) [] (External 7)).
  reflexivity.
Defined.

(** ** create *)

(** C5: on a response body [d], [create] raises "no body" when [d] is
    falsy (absent); otherwise it raises an error whose message embeds the
    returned [status] exactly when [status] is not ["success"] or no [id] is
    present; otherwise it returns the [id]. *)
Theorem create_checks_response (B : config_read) server tn c body log d :
  B = ConfigValue c ->
  (forall r, server (length log) r = Response d) ->
  (truthy d = false ->
     fst (create B server tn body log) =
       Exc (Error "Unexpected response from bubble: no body")) /\
  (truthy d = true ->
   strict_eq_str (prop_opt d "status") "success" = false \/
   truthy (prop_opt d "id") = false ->
     fst (create B server tn body log) =
       Exc (Error ("create request failed with status: "
                     ++ js_to_string (prop_opt d "status")))) /\
  (forall v,
     fst (create B server tn body log) = Ok v <->
     truthy d = true /\ prop_opt d "status" = VStr "success" /\
     prop_opt d "id" = v /\ truthy v = true).
Proof.
  intros Hconf Hsrv.
  pose proof (create_response B server tn c Hconf body log d Hsrv) as H.
  split; [|split].
  - intros Hd. rewrite H, Hd. reflexivity.
  - intros Hd Hfail. rewrite H, Hd. cbn [negb].
    destruct Hfail as [Hs|Hi]; [rewrite Hs|rewrite Hi, orb_true_r]; reflexivity.
  - intros v. rewrite H. split.
    + destruct (truthy d) eqn:Hd; [|discriminate].
      destruct (prop_opt d "status") eqn:Hs; try discriminate.
      cbn [strict_eq_str negb orb].
      destruct (String.eqb s "success") eqn:Es; [|discriminate].
      apply String.eqb_eq in Es. subst s.
      destruct (truthy (prop_opt d "id")) eqn:Hi; [|discriminate].
      cbn. intros Hv. injection Hv as <-. auto.
    + intros [Hd [Hs [Hi Hv]]]. subst v. rewrite Hd, Hs, Hv. reflexivity.
Qed.

Lemma create_checks_response_witness :
  let d := VObj [("status", VStr "success"); ("id", VStr "1612345x9")] in
  (truthy d = false ->
     fst (create (ConfigValue demo_config) created_server "user" (VObj []) []) =
       Exc (Error "Unexpected response from bubble: no body")) /\
  (truthy d = true ->
   strict_eq_str (prop_opt d "status") "success" = false \/
   truthy (prop_opt d "id") = false ->
     fst (create (ConfigValue demo_config) created_server "user" (VObj []) []) =
       Exc (Error ("create request failed with status: "
                     ++ js_to_string (prop_opt d "status")))) /\
  (forall v,
     fst (create (ConfigValue demo_config) created_server "user" (VObj []) []) = Ok v <->
     truthy d = true /\ prop_opt d "status" = VStr "success" /\
     prop_opt d "id" = v /\ truthy v = true).
Proof.
  apply (create_checks_response (ConfigValue demo_config) created_server "user"
           demo_config (VObj []) []).
  - reflexivity.
  - intros r. reflexivity.
Defined.

(** ** getByID *)

(** C10: [getByID] only tests that the body is truthy; a body without a
    [response] field yields [new this(undefined)], an instance with no
    fields, after the single request. *)
Theorem getByID_missing_payload (B : config_read) server tn c id log d :
  B = ConfigValue c ->
  (forall r, server (length log) r = Response d) ->
  truthy d = true ->
  prop_opt d "response" = VUndef ->
  exists req,
    getByID B server tn id log = (Ok (mkInstance tn []), (log ++ [req])%list).
Proof.
  intros Hconf Hsrv Hd Hr.
  unfold getByID.
  rewrite (bind_ok _ _ _ _ _ (url_and_headers_ok B tn c Hconf log)).
  unfold bind at 1, http. rewrite Hsrv, Hd.
  eexists. cbn [negb]. unfold bind, lift, ret.
  rewrite (prop_truthy d) by exact Hd. rewrite Hr.
  reflexivity.
Qed.

Lemma getByID_missing_payload_witness :
  exists req,
    getByID (ConfigValue demo_config) status_only_server "user" "1612345x1" [] =
      (Ok (mkInstance "user" []), ([] ++ [req])%list).
Proof.
  apply (getByID_missing_payload (ConfigValue demo_config) status_only_server "user"
           demo_config "1612345x1" [] (VObj [("status", VStr "NOT_FOUND")])).
  - reflexivity.
  - intros r. reflexivity.
  - reflexivity.
  - reflexivity.
Defined.

(** ** URLs and the authorisation header *)

Lemma issues_only_ret {A} P (a : A) : issues_only P (ret a).
Proof. intros log. exists []. rewrite app_nil_r. split; [reflexivity|constructor]. Qed.

Lemma issues_only_lift {A} P (r : result A) : issues_only P (lift r).
Proof. intros log. exists []. rewrite app_nil_r. split; [reflexivity|constructor]. Qed.

Lemma issues_only_throw {A} P e : issues_only P (@throw A e).
Proof. intros log. exists []. rewrite app_nil_r. split; [reflexivity|constructor]. Qed.

Lemma issues_only_bind {A B} P (m : M A) (f : A -> M B) :
  issues_only P m -> (forall a, issues_only P (f a)) -> issues_only P (bind m f).
Proof.
  intros Hm Hf log. destruct (Hm log) as [r1 [H1 F1]].
  unfold bind. destruct (m log) as [[a|e|] log'] eqn:E; cbn in H1; subst log'.
  - destruct (Hf a (log ++ r1)%list) as [r2 [H2 F2]].
    exists (r1 ++ r2)%list. rewrite H2, app_assoc.
    split; [reflexivity|apply Forall_app; split; assumption].
  - exists r1. split; [reflexivity|exact F1].
  - exists r1. split; [reflexivity|exact F1].
Qed.

(** A step that reads the configuration and issues nothing. *)
Lemma issues_only_bind_pure {A B} P (m : M A) (f : A -> M B) a :
  (forall log, m log = (Ok a, log)) -> issues_only P (f a) -> issues_only P (bind m f).
Proof. intros Hm Hf log. rewrite (bind_ok _ _ _ _ _ (Hm log)). apply Hf. Qed.

Lemma issues_only_http P server r : P r -> issues_only P (http server r).
Proof.
  intros Hr log. exists [r]. unfold http.
  destruct (server (length log) r); (split; [reflexivity|repeat constructor; exact Hr]).
Qed.

Ltac issues_step :=
  match goal with
  | |- issues_only _ (bind _ _) => apply issues_only_bind; [|intros ?]
  | |- issues_only _ (ret _) => apply issues_only_ret
  | |- issues_only _ (lift _) => apply issues_only_lift
  | |- issues_only _ (throw _) => apply issues_only_throw
  | |- issues_only _ (if ?b then _ else _) => destruct b
  end.

Section Requests.

Variable B : config_read.
Variable server : nat -> request -> outcome.
Variable js : val -> string.
Variable tn : string.
Variable c : config.
Hypothesis Hconf : B = ConfigValue c.

Lemma issues_only_search_params P cfg : issues_only P (search_params js cfg).
Proof. unfold search_params. repeat issues_step. Qed.

Lemma issues_only_search cfg : issues_only (to_collection tn c) (search B server js tn cfg).
Proof.
  unfold search. cbv zeta.
  apply (issues_only_bind_pure _ _ _ _ (url_and_headers_ok B tn c Hconf)).
  apply issues_only_bind; [apply issues_only_search_params|intros params].
  apply issues_only_bind; [apply issues_only_http; split; reflexivity|intros data].
  repeat issues_step.
Qed.

Lemma issues_only_getAll_loop fuel cfg : forall cursor acc,
  issues_only (to_collection tn c) (getAll_loop B server js tn fuel cfg cursor acc).
Proof.
  induction fuel as [|fuel IH]; intros cursor acc.
  - apply issues_only_lift.
  - cbn [getAll_loop].
    apply issues_only_bind; [apply issues_only_search|intros res].
    repeat issues_step. apply IH.
Qed.

End Requests.

(** C7 (what holds): the collection URL is [https://{app}.bubbleapps.io],
    then [/{appVersion}] exactly when the version label is a non-empty
    string, then [/api/1.1/obj/{typeName}]; [search], [getAll] and [getOne]
    request it as is, [getByID] and [save] append [/{id}], [create] appends
    [/]; every request carries [Authorization: Bearer {apiKey}]. *)
Theorem requests_url_and_auth (B : config_read) server js tn c :
  B = ConfigValue c ->
  collection_url c tn =
    "https://" ++ app c ++ ".bubbleapps.io"
      ++ (match appVersion c with
          | Some v => if String.eqb v "" then "" else "/" ++ v
          | None => ""
          end)
      ++ "/api/1.1/obj/" ++ tn /\
  auth_header c = [("Authorization", "Bearer " ++ apiKey c)] /\
  (forall id, issues_only (fun r => req_url r = collection_url c tn ++ "/" ++ id /\
                                    req_headers r = auth_header c)
                          (getByID B server tn id)) /\
  (forall body, issues_only (fun r => req_url r = collection_url c tn ++ "/" /\
                                      req_headers r = auth_header c)
                            (create B server tn body)) /\
  (forall cfg, issues_only (to_collection tn c) (search B server js tn cfg)) /\
  (forall fuel cfg, issues_only (to_collection tn c) (getAll B server js tn fuel cfg)) /\
  (forall cfg, issues_only (to_collection tn c) (getOne B server js tn cfg)) /\
  (forall inst, inst_type inst = tn ->
     issues_only (fun r => req_url r = collection_url c tn ++ "/" ++ js_to_string (inst_id inst) /\
                           req_headers r = auth_header c)
                 (save B server inst)).
Proof.
  intros Hconf.
  split; [|split; [reflexivity|split; [|split; [|split; [|split; [|split]]]]]].
  - unfold collection_url, versionPart.
    destruct (appVersion c) as [v|]; [|reflexivity].
    cbn [truthy]. destruct (String.eqb v ""); reflexivity.
  - intros id. unfold getByID.
    apply (issues_only_bind_pure _ _ _ _ (url_and_headers_ok B tn c Hconf)).
    apply issues_only_bind; [apply issues_only_http; split; reflexivity|intros data].
    repeat issues_step.
  - intros body. unfold create.
    apply (issues_only_bind_pure _ _ _ _ (url_and_headers_ok B tn c Hconf)).
    apply issues_only_bind; [apply issues_only_http; split; reflexivity|intros data].
    repeat issues_step.
  - intros cfg. apply (issues_only_search B server js tn c Hconf).
  - intros fuel cfg. apply (issues_only_getAll_loop B server js tn c Hconf).
  - intros cfg. unfold getOne.
    apply issues_only_bind; [apply (issues_only_search B server js tn c Hconf)|intros sr].
    repeat issues_step.
  - intros inst Hty. unfold save.
    apply (issues_only_bind_pure _ _ _ _ (objectUrl_ok B c Hconf (inst_type inst))).
    apply (issues_only_bind_pure _ _ _ _ (headers_ok B c Hconf)).
    rewrite Hty. repeat issues_step.
    apply issues_only_http. split; reflexivity.
Qed.

Lemma requests_url_and_auth_witness :
  collection_url demo_config "user" =
    "https://myapp.bubbleapps.io/version-test/api/1.1/obj/user" /\
  issues_only (to_collection "user" demo_config)
    (search (ConfigValue demo_config) demo_server demo_stringify "user" (VObj [])).
Proof.
  destruct (requests_url_and_auth (ConfigValue demo_config) demo_server demo_stringify
              "user" demo_config eq_refl) as [Hu [_ [_ [_ [Hs _]]]]].
  split; [exact Hu|apply Hs].
Defined.

(** C7, as stated, fails twice: an empty version label adds no segment
    (the claim's URL would carry an empty [/] segment), and [getByID]
    requests [{collection}/{id}], not the collection URL. *)
Lemma requests_url_counterexample :
  map req_url (snd (search (ConfigValue empty_version_config) demo_server demo_stringify
                      "user" (VObj []) []))
    <> [spec_collection_url empty_version_config "user"] /\
  map req_url (snd (getByID (ConfigValue demo_config) demo_server "user" "1612345x1" []))
    <> [spec_collection_url demo_config "user"].
Proof. vm_compute. split; discriminate. Qed.

(** ** Further properties of the code *)

(** [getAll] stops only on [remaining <= 0]: when every page's [remaining]
    is missing ([undefined <= 0] is false) or positive, the loop never ends;
    after [n] rounds it has issued [n] requests and is still looping. *)
Theorem getAll_never_stops (B : config_read) server js tn c cfgv :
  B = ConfigValue c ->
  (forall i, exists fs,
     (forall r, server i r = Response (VObj [("response", VObj fs)])) /\
     le_zero (prop_opt (VObj fs) "remaining") = false) ->
  forall fuel log,
    fst (getAll B server js tn fuel cfgv log) = OutOfFuel /\
    length (snd (getAll B server js tn fuel cfgv log)) = length log + fuel.
Proof.
  intros Hconf Hsrv fuel.
  unfold getAll. generalize 0%Z as cursor. generalize (@nil val) as acc.
  induction fuel as [|fuel IH]; intros acc cursor log.
  - cbn. split; [reflexivity|lia].
  - destruct (Hsrv (length log)) as [fs [Hr Hle]].
    destruct (getAll_loop_obj B server js tn c Hconf fuel cfgv cursor acc log fs Hr)
      as [req [_ Hstep]].
    rewrite Hstep, Hle.
    destruct (IH (concat_val acc (prop_opt (VObj fs) "results")) (cursor + 1)%Z
                (log ++ [req])%list) as [H1 H2].
    split; [exact H1|]. rewrite H2, length_app. cbn. lia.
Qed.

(** A store whose pages carry results but never a [remaining] count. *)
Lemma getAll_never_stops_witness :
  fst (getAll (ConfigValue demo_config) no_remaining_server demo_stringify "user" 3
         (VObj []) []) = OutOfFuel /\
  length (snd (getAll (ConfigValue demo_config) no_remaining_server demo_stringify "user" 3
                 (VObj []) [])) = length (@nil request) + 3.
Proof.
  apply (getAll_never_stops (ConfigValue demo_config) no_remaining_server demo_stringify
           "user" demo_config (VObj [])).
  - reflexivity.
  - intros i. exists [("results", VArr [VStr "a"])]. split; [intros r; reflexivity|reflexivity].
Defined.

(** [results.concat(res.results)]: a last page whose [results] is not an
    array (for instance missing, hence [undefined]) contributes that value
    as one element, so [getAll] returns [[undefined]] rather than [[]]. *)
Theorem getAll_non_array_results (B : config_read) server js tn c fuel cfgv fs :
  B = ConfigValue c ->
  (forall r, server 0 r = Response (VObj [("response", VObj fs)])) ->
  le_zero (prop_opt (VObj fs) "remaining") = true ->
  (forall l, prop_opt (VObj fs) "results" <> VArr l) ->
  0 < fuel ->
  exists req,
    getAll B server js tn fuel cfgv [] = (Ok [prop_opt (VObj fs) "results"], [req]).
Proof.
  intros Hconf Hsrv Hle Hna Hfuel.
  destruct fuel as [|fuel]; [lia|].
  destruct (getAll_loop_obj B server js tn c Hconf fuel cfgv 0 [] [] fs Hsrv)
    as [req [_ Hstep]].
  exists req. unfold getAll. rewrite Hstep, Hle.
  unfold concat_val.
  destruct (prop_opt (VObj fs) "results") eqn:E; try reflexivity.
  exfalso. exact (Hna l eq_refl).
Qed.

Lemma getAll_non_array_results_witness :
  exists req,
    getAll (ConfigValue demo_config) no_results_server demo_stringify "user" 4 (VObj []) [] =
      (Ok [prop_opt (VObj [("remaining", VNum 0)]) "results"], [req]).
Proof.
  apply (getAll_non_array_results (ConfigValue demo_config) no_results_server demo_stringify
           "user" demo_config 4 (VObj []) [("remaining", VNum 0)]).
  - reflexivity.
  - intros r. reflexivity.
  - reflexivity.
  - intros l. discriminate.
  - lia.
Defined.

Lemma url_and_headers_throws B tn e log :
  B = ConfigThrows e -> url_and_headers B tn log = (Exc e, log).
Proof.
  intros H. unfold url_and_headers, objectUrl_of, get_config, bind, throw.
  now rewrite H.
Qed.

Lemma search_config_throws B server js tn e cfg log :
  B = ConfigThrows e -> search B server js tn cfg log = (Exc e, log).
Proof.
  intros H. unfold search. cbv zeta.
  exact (bind_exc _ _ _ _ _ (url_and_headers_throws B tn e log H)).
Qed.

(** Every operation reads [BubbleConfig.get()] (through [objectUrl] and
    [headers]) before any request: when it throws, [getByID], [create],
    [search], [getAll] and [getOne] raise that error with no request. *)
Theorem config_failure_no_request (B : config_read) server js tn e :
  B = ConfigThrows e ->
  (forall id log, getByID B server tn id log = (Exc e, log)) /\
  (forall body log, create B server tn body log = (Exc e, log)) /\
  (forall cfg log, search B server js tn cfg log = (Exc e, log)) /\
  (forall fuel cfg log, 0 < fuel -> getAll B server js tn fuel cfg log = (Exc e, log)) /\
  (forall cfg log, getOne B server js tn cfg log = (Exc e, log)).
Proof.
  intros H. split; [|split; [|split; [|split]]].
  - intros id log. unfold getByID.
    exact (bind_exc _ _ _ _ _ (url_and_headers_throws B tn e log H)).
  - intros body log. unfold create.
    exact (bind_exc _ _ _ _ _ (url_and_headers_throws B tn e log H)).
  - intros cfg log. exact (search_config_throws B server js tn e cfg log H).
  - intros [|fuel] cfg log Hf; [lia|].
    unfold getAll. rewrite getAll_loop_S.
    exact (bind_exc _ _ _ _ _ (search_config_throws B server js tn e _ log H)).
  - intros cfg log. unfold getOne.
    exact (bind_exc _ _ _ _ _ (search_config_throws B server js tn e cfg log H)).
Qed.

Lemma config_failure_no_request_witness :
  (forall id log, getByID (ConfigThrows (External 2)) demo_server "user" id log =
                    (Exc (External 2), log)) /\
  (forall body log, create (ConfigThrows (External 2)) demo_server "user" body log =
                      (Exc (External 2), log)) /\
  (forall cfg log, search (ConfigThrows (External 2)) demo_server demo_stringify "user" cfg log =
                     (Exc (External 2), log)) /\
  (forall fuel cfg log, 0 < fuel ->
     getAll (ConfigThrows (External 2)) demo_server demo_stringify "user" fuel cfg log =
       (Exc (External 2), log)) /\
  (forall cfg log, getOne (ConfigThrows (External 2)) demo_server demo_stringify "user" cfg log =
                     (Exc (External 2), log)).
Proof.
  apply (config_failure_no_request (ConfigThrows (External 2)) demo_server demo_stringify
           "user" (External 2)).
  reflexivity.
Defined.

(** A rejected request (network error, HTTP error status) reaches the
    caller of [getByID], [create], [search] and [getOne] unchanged, after
    that single request: nothing is caught or retried. *)
Theorem transport_failure_propagates (B : config_read) server js tn c e log :
  B = ConfigValue c ->
  (forall r, server (length log) r = Failure e) ->
  (forall id, exists req, getByID B server tn id log = (Exc e, (log ++ [req])%list)) /\
  (forall body, exists req, create B server tn body log = (Exc e, (log ++ [req])%list)) /\
  (forall fs, exists req, search B server js tn (VObj fs) log = (Exc e, (log ++ [req])%list)) /\
  (forall fs, exists req, getOne B server js tn (VObj fs) log = (Exc e, (log ++ [req])%list)).
Proof.
  intros Hconf Hsrv. split; [|split; [|split]].
  - intros id. unfold getByID.
    rewrite (bind_ok _ _ _ _ _ (url_and_headers_ok B tn c Hconf log)).
    unfold bind at 1, http. rewrite Hsrv. eexists. reflexivity.
  - intros body. unfold create.
    rewrite (bind_ok _ _ _ _ _ (url_and_headers_ok B tn c Hconf log)).
    unfold bind at 1, http. rewrite Hsrv. eexists. reflexivity.
  - intros fs.
    destruct (search_obj B server js tn c Hconf fs log) as [req [_ [_ [_ [_ [_ Hs]]]]]].
    rewrite Hsrv in Hs. exists req. exact Hs.
  - intros fs.
    destruct (search_obj B server js tn c Hconf fs log) as [req [_ [_ [_ [_ [_ Hs]]]]]].
    rewrite Hsrv in Hs. exists req. unfold getOne. exact (bind_exc _ _ _ _ _ Hs).
Qed.

Lemma transport_failure_propagates_witness :
  (forall id, exists req, getByID (ConfigValue demo_config) refusing_server "user" id [] =
                            (Exc (External 503), ([] ++ [req])%list)) /\
  (forall body, exists req, create (ConfigValue demo_config) refusing_server "user" body [] =
                              (Exc (External 503), ([] ++ [req])%list)) /\
  (forall fs, exists req, search (ConfigValue demo_config) refusing_server demo_stringify "user"
                            (VObj fs) [] = (Exc (External 503), ([] ++ [req])%list)) /\
  (forall fs, exists req, getOne (ConfigValue demo_config) refusing_server demo_stringify "user"
                            (VObj fs) [] = (Exc (External 503), ([] ++ [req])%list)).
Proof.
  apply (transport_failure_propagates (ConfigValue demo_config) refusing_server demo_stringify
           "user" demo_config (External 503) []).
  - reflexivity.
  - intros r. reflexivity.
Defined.

(** [search(config = {})] only defaults [undefined]: [search(null)] and
    [getOne(null)] raise a [TypeError] on [config.constraints] before any
    request, while [getAll(null)] and [getAll(undefined)] spread the
    configuration and behave as [getAll({})]. *)
Theorem null_config (B : config_read) server js tn c :
  B = ConfigValue c ->
  (forall log, search B server js tn VNull log = (Exc TypeError, log)) /\
  (forall log, getOne B server js tn VNull log = (Exc TypeError, log)) /\
  (forall fuel log,
     getAll B server js tn fuel VNull log = getAll B server js tn fuel (VObj []) log /\
     getAll B server js tn fuel VUndef log = getAll B server js tn fuel (VObj []) log).
Proof.
  intros Hconf.
  assert (Hs : forall log, search B server js tn VNull log = (Exc TypeError, log)).
  { intros log. unfold search. cbv zeta.
    rewrite (bind_ok _ _ _ _ _ (url_and_headers_ok B tn c Hconf log)).
    reflexivity. }
  assert (Hloop : forall cfg, own_props cfg = [] -> forall fuel cursor acc log,
             getAll_loop B server js tn fuel cfg cursor acc log =
             getAll_loop B server js tn fuel (VObj []) cursor acc log).
  { intros cfg Hcfg fuel. induction fuel as [|fuel IH]; intros cursor acc log.
    - reflexivity.
    - rewrite !getAll_loop_S, Hcfg. change (@nil (string * val)) with (own_props (VObj [])).
      unfold bind, lift, ret.
      destruct (search B server js tn _ log) as [[res|e|] log']; try reflexivity.
      destruct (prop res "results"); try reflexivity.
      destruct (prop res "remaining"); try reflexivity.
      destruct (le_zero _); [reflexivity|apply IH]. }
  split; [exact Hs|split].
  - intros log. unfold getOne. exact (bind_exc _ _ _ _ _ (Hs log)).
  - intros fuel log. split; apply Hloop; reflexivity.
Qed.

Lemma null_config_witness :
  (forall log, search (ConfigValue demo_config) demo_server demo_stringify "user" VNull log =
                 (Exc TypeError, log)) /\
  (forall log, getOne (ConfigValue demo_config) demo_server demo_stringify "user" VNull log =
                 (Exc TypeError, log)) /\
  (forall fuel log,
     getAll (ConfigValue demo_config) demo_server demo_stringify "user" fuel VNull log =
       getAll (ConfigValue demo_config) demo_server demo_stringify "user" fuel (VObj []) log /\
     getAll (ConfigValue demo_config) demo_server demo_stringify "user" fuel VUndef log =
       getAll (ConfigValue demo_config) demo_server demo_stringify "user" fuel (VObj []) log).
Proof.
  apply (null_config (ConfigValue demo_config) demo_server demo_stringify "user" demo_config).
  reflexivity.
Defined.

(** *** Object.assign in the constructor *)

Lemma assoc_set_field k k' v fs :
  assoc k (set_field k' v fs) = if String.eqb k k' then Some v else assoc k fs.
Proof.
  induction fs as [|[k'' v''] fs IH]; cbn [set_field assoc].
  - reflexivity.
  - destruct (String.eqb k' k'') eqn:E1.
    + apply String.eqb_eq in E1. subst k''. cbn [assoc].
      destruct (String.eqb k k'); reflexivity.
    + cbn [assoc]. rewrite IH.
      destruct (String.eqb k k'') eqn:E2; [|reflexivity].
      apply String.eqb_eq in E2. subst k''.
      destruct (String.eqb k k') eqn:E3; [|reflexivity].
      apply String.eqb_eq in E3. subst k'. now rewrite String.eqb_refl in E1.
Qed.

Lemma keys_set_field k v fs :
  ~ In k (map fst fs) -> set_field k v fs = (fs ++ [(k, v)])%list.
Proof.
  induction fs as [|[k' v'] fs IH]; intros Hn; cbn [set_field].
  - reflexivity.
  - cbn in Hn. destruct (String.eqb k k') eqn:E.
    + apply String.eqb_eq in E. subst k'. tauto.
    + rewrite IH by tauto. reflexivity.
Qed.

Lemma keys_set_field_in k v fs :
  In k (map fst fs) -> map fst (set_field k v fs) = map fst fs.
Proof.
  induction fs as [|[k' v'] fs IH]; intros Hi; [destruct Hi|].
  cbn [set_field]. destruct (String.eqb k k') eqn:E; [reflexivity|].
  cbn [map fst]. rewrite IH; [reflexivity|].
  destruct Hi as [Hk|Hi]; [|exact Hi].
  cbn in Hk. subst k'. now rewrite String.eqb_refl in E.
Qed.

Definition assign_step (acc : list (string * val)) (kv : string * val) :=
  set_field (fst kv) (snd kv) acc.

Lemma own_props_obj fs : own_props (VObj fs) = fold_left assign_step fs [].
Proof. reflexivity. Qed.

Lemma assign_lookup k fs : forall acc,
  assoc k (fold_left assign_step fs acc) =
  fold_left (fun o kv => if String.eqb k (fst kv) then Some (snd kv) else o) fs (assoc k acc).
Proof.
  induction fs as [|kv fs IH]; intros acc; [reflexivity|].
  cbn [fold_left]. rewrite IH. unfold assign_step. now rewrite assoc_set_field.
Qed.

Lemma assign_nodup fs : forall acc,
  NoDup (map fst acc) -> NoDup (map fst (fold_left assign_step fs acc)).
Proof.
  induction fs as [|[k v] fs IH]; intros acc Hacc; [exact Hacc|].
  cbn [fold_left]. apply IH. unfold assign_step. cbn [fst snd].
  destruct (in_dec string_dec k (map fst acc)) as [Hi|Hn].
  - now rewrite keys_set_field_in.
  - rewrite keys_set_field by exact Hn. rewrite map_app.
    apply NoDup_app; [exact Hacc|repeat constructor; intros []|].
    intros a Ha [Hk|[]]. cbn in Hk. subst a. contradiction.
Qed.

Lemma assign_fresh fs : forall acc,
  NoDup (map fst (acc ++ fs)) -> fold_left assign_step fs acc = (acc ++ fs)%list.
Proof.
  induction fs as [|[k v] fs IH]; intros acc Hnd.
  - now rewrite app_nil_r.
  - cbn [fold_left]. unfold assign_step at 2. cbn [fst snd].
    rewrite keys_set_field.
    + rewrite IH; [now rewrite <- app_assoc|].
      now rewrite <- app_assoc.
    + rewrite map_app in Hnd. cbn in Hnd.
      intros Hi. apply NoDup_remove_2 in Hnd. apply Hnd. apply in_or_app. now left.
Qed.

Lemma own_props_nodup fs : NoDup (map fst fs) -> own_props (VObj fs) = fs.
Proof. intros H. rewrite own_props_obj. now apply (assign_fresh fs []). Qed.

(** [new this(args)] with [Object.assign(this, args)]: the instance gets
    every key of [args] once, with the value [args] gives it last; when
    [args] lists each key once, the instance's fields are exactly [args]. *)
Theorem construct_copies_args tn fs :
  (forall k, assoc k (inst_fields (construct tn (VObj fs))) = last_value k fs) /\
  NoDup (map fst (inst_fields (construct tn (VObj fs)))) /\
  (NoDup (map fst fs) -> inst_fields (construct tn (VObj fs)) = fs).
Proof.
  cbn [construct inst_fields]. rewrite own_props_obj.
  split; [|split].
  - intros k. rewrite assign_lookup. reflexivity.
  - apply assign_nodup. constructor.
  - intros H. rewrite <- own_props_obj. now apply own_props_nodup.
Qed.

Lemma construct_copies_args_witness :
  inst_fields (construct "user" (VObj stored_fields)) = stored_fields.
Proof.
  apply (proj2 (proj2 (construct_copies_args "user" stored_fields))).
  apply NoDup_cons; [cbn; intros [H|[]]; discriminate|].
  apply NoDup_cons; [intros []|constructor].
Defined.

(** *** getByID and save *)

(** [getByID] on a body [{ response: fs }] whose fields are distinct returns
    an instance of the class carrying exactly those fields, after one [GET]
    to [{collection}/{id}]. *)
Theorem getByID_returns_fields (B : config_read) server tn c id log fs :
  B = ConfigValue c ->
  (forall r, server (length log) r = Response (VObj [("response", VObj fs)])) ->
  NoDup (map fst fs) ->
  exists req,
    getByID B server tn id log = (Ok (mkInstance tn fs), (log ++ [req])%list) /\
    req_method req = "GET" /\ req_url req = collection_url c tn ++ "/" ++ id.
Proof.
  intros Hconf Hsrv Hnd.
  unfold getByID.
  rewrite (bind_ok _ _ _ _ _ (url_and_headers_ok B tn c Hconf log)).
  unfold bind at 1, http. rewrite Hsrv.
  eexists. split.
  { assert (Hc : construct tn (VObj fs) = mkInstance tn fs).
    { unfold construct. now rewrite own_props_nodup. }
    rewrite <- Hc. reflexivity. }
  split; reflexivity.
Qed.

Lemma getByID_returns_fields_witness :
  exists req,
    getByID (ConfigValue demo_config) record_server "user" "1612345x1" [] =
      (Ok (mkInstance "user" stored_fields), ([] ++ [req])%list) /\
    req_method req = "GET" /\
    req_url req = collection_url demo_config "user" ++ "/" ++ "1612345x1".
Proof.
  apply (getByID_returns_fields (ConfigValue demo_config) record_server "user" demo_config
           "1612345x1" [] stored_fields).
  - reflexivity.
  - intros r. reflexivity.
  - apply NoDup_cons; [cbn; intros [H|[]]; discriminate|].
    apply NoDup_cons; [intros []|constructor].
Defined.

Lemma save_with_id (B : config_read) server c inst log :
  B = ConfigValue c ->
  truthy (inst_id inst) = true ->
  let req := mkRequest "PATCH"
               (collection_url c (inst_type inst) ++ "/" ++ js_to_string (inst_id inst))
               (auth_header c) [] (VObj (inst_fields inst)) in
  save B server inst log =
    (match server (length log) req with
     | Response _ => Ok tt
     | Failure e => Exc e
     end, (log ++ [req])%list).
Proof.
  intros Hconf Hid. unfold save.
  rewrite (bind_ok _ _ _ _ _ (objectUrl_ok B c Hconf (inst_type inst) log)).
  rewrite (bind_ok _ _ _ _ _ (headers_ok B c Hconf log)).
  rewrite Hid. cbn [negb]. unfold bind, http, ret.
  destruct (server (length log) _); reflexivity.
Qed.

(** Fetching a record and saving the instance unchanged: the [PATCH] goes
    to the URL the record was fetched from and carries the fetched fields. *)
Theorem fetch_then_save (B : config_read) server tn c id fs :
  B = ConfigValue c ->
  (forall r, server 0 r = Response (VObj [("response", VObj fs)])) ->
  NoDup (map fst fs) ->
  assoc "_id" fs = Some (VStr id) ->
  id <> "" ->
  exists get,
    getByID B server tn id [] = (Ok (mkInstance tn fs), [get]) /\
    let patch := mkRequest "PATCH" (req_url get) (auth_header c) [] (VObj fs) in
    save B server (mkInstance tn fs) [get] =
      (match server 1 patch with
       | Response _ => Ok tt
       | Failure e => Exc e
       end, [get; patch]).
Proof.
  intros Hconf Hsrv Hnd Hid Hne.
  destruct (getByID_returns_fields B server tn c id [] fs Hconf Hsrv Hnd)
    as [get [Hget [_ Hurl]]].
  exists get. split; [exact Hget|].
  assert (Hinst : inst_id (mkInstance tn fs) = VStr id).
  { unfold inst_id. cbn [inst_fields]. now rewrite Hid. }
  assert (Ht : truthy (inst_id (mkInstance tn fs)) = true).
  { rewrite Hinst. cbn. destruct (String.eqb id "") eqn:E; [|reflexivity].
    apply String.eqb_eq in E. contradiction. }
  rewrite (save_with_id B server c (mkInstance tn fs) [get] Hconf Ht).
  rewrite Hinst, Hurl. reflexivity.
Qed.

Lemma fetch_then_save_witness :
  exists get,
    getByID (ConfigValue demo_config) record_server "user" "1612345x1" [] =
      (Ok (mkInstance "user" stored_fields), [get]) /\
    let patch := mkRequest "PATCH" (req_url get) (auth_header demo_config) []
                   (VObj stored_fields) in
    save (ConfigValue demo_config) record_server (mkInstance "user" stored_fields) [get] =
      (match record_server 1 patch with
       | Response _ => Ok tt
       | Failure e => Exc e
       end, [get; patch]).
Proof.
  apply (fetch_then_save (ConfigValue demo_config) record_server "user" demo_config
           "1612345x1" stored_fields).
  - reflexivity.
  - intros r. reflexivity.
  - apply NoDup_cons; [cbn; intros [H|[]]; discriminate|].
    apply NoDup_cons; [intros []|constructor].
  - reflexivity.
  - discriminate.
Defined.

(** *** One request per call *)

Lemma keeps_log_ret {A} (a : A) : keeps_log (ret a).
Proof. intros log. reflexivity. Qed.

Lemma keeps_log_lift {A} (r : result A) : keeps_log (lift r).
Proof. intros log. reflexivity. Qed.

Lemma keeps_log_throw {A} e : keeps_log (@throw A e).
Proof. intros log. reflexivity. Qed.

(** A continuation that issues nothing leaves the log as the first step left it. *)
Lemma bind_keeps {A B} (m : M A) (f : A -> M B) log :
  (forall a, keeps_log (f a)) -> snd (bind m f log) = snd (m log).
Proof.
  intros Hf. unfold bind. destruct (m log) as [[a|e|] log']; [apply Hf|reflexivity|reflexivity].
Qed.

Lemma keeps_log_bind {A B} (m : M A) (f : A -> M B) :
  keeps_log m -> (forall a, keeps_log (f a)) -> keeps_log (bind m f).
Proof. intros Hm Hf log. rewrite bind_keeps by exact Hf. apply Hm. Qed.

Ltac keeps_step :=
  match goal with
  | |- keeps_log (bind _ _) => apply keeps_log_bind; [|intros ?]
  | |- keeps_log (ret _) => apply keeps_log_ret
  | |- keeps_log (lift _) => apply keeps_log_lift
  | |- keeps_log (throw _) => apply keeps_log_throw
  | |- keeps_log (if ?b then _ else _) => destruct b
  end.

(** [getByID], [create], [search] and [getOne] each issue exactly one
    request, whatever the server answers: no retry, no second call.
    [getByID] is a [GET] without body, [create] a [POST] of the caller's
    data unchanged, [search] and [getOne] a [GET]. *)
Theorem one_request_per_call (B : config_read) server js tn c log :
  B = ConfigValue c ->
  (forall id, exists req, snd (getByID B server tn id log) = (log ++ [req])%list /\
                          req_method req = "GET" /\ req_body req = VUndef) /\
  (forall body, exists req, snd (create B server tn body log) = (log ++ [req])%list /\
                            req_method req = "POST" /\ req_body req = body) /\
  (forall fs, exists req, snd (search B server js tn (VObj fs) log) = (log ++ [req])%list /\
                          req_method req = "GET") /\
  (forall fs, exists req, snd (getOne B server js tn (VObj fs) log) = (log ++ [req])%list /\
                          req_method req = "GET").
Proof.
  intros Hconf. split; [|split; [|split]].
  - intros id. unfold getByID.
    rewrite (bind_ok _ _ _ _ _ (url_and_headers_ok B tn c Hconf log)).
    exists (mkRequest "GET" (collection_url c tn ++ "/" ++ id) (auth_header c) [] VUndef).
    split; [|split; reflexivity].
    rewrite bind_keeps; [unfold http; cbn; destruct server; reflexivity|].
    intros d. repeat keeps_step.
  - intros body. unfold create.
    rewrite (bind_ok _ _ _ _ _ (url_and_headers_ok B tn c Hconf log)).
    exists (mkRequest "POST" (collection_url c tn ++ "/") (auth_header c) [] body).
    split; [|split; reflexivity].
    rewrite bind_keeps; [unfold http; cbn; destruct server; reflexivity|].
    intros d. repeat keeps_step.
  - intros fs.
    destruct (search_obj B server js tn c Hconf fs log) as [req [_ [_ [Hm [_ [_ Hs]]]]]].
    exists req. rewrite Hs. split; [reflexivity|exact Hm].
  - intros fs.
    destruct (search_obj B server js tn c Hconf fs log) as [req [_ [_ [Hm [_ [_ Hs]]]]]].
    exists req. unfold getOne. rewrite bind_keeps.
    + rewrite Hs. split; [reflexivity|exact Hm].
    + intros a. repeat keeps_step.
Qed.

Lemma one_request_per_call_witness :
  (forall id, exists req,
     snd (getByID (ConfigValue demo_config) demo_server "user" id []) = ([] ++ [req])%list /\
     req_method req = "GET" /\ req_body req = VUndef) /\
  (forall body, exists req,
     snd (create (ConfigValue demo_config) demo_server "user" body []) = ([] ++ [req])%list /\
     req_method req = "POST" /\ req_body req = body) /\
  (forall fs, exists req,
     snd (search (ConfigValue demo_config) demo_server demo_stringify "user" (VObj fs) []) =
       ([] ++ [req])%list /\ req_method req = "GET") /\
  (forall fs, exists req,
     snd (getOne (ConfigValue demo_config) demo_server demo_stringify "user" (VObj fs) []) =
       ([] ++ [req])%list /\ req_method req = "GET").
Proof.
  apply (one_request_per_call (ConfigValue demo_config) demo_server demo_stringify "user"
           demo_config []).
  reflexivity.
Defined.

(** *** Response bodies *)

(** [search] checks only [res.data?.response]: an empty or payload-less
    body raises ["search request failed"]; any truthy payload is returned as
    it came, its records plain objects, not instances of the class. *)
Theorem search_response_check (B : config_read) server js tn c fs log d :
  B = ConfigValue c ->
  (forall r, server (length log) r = Response d) ->
  exists req,
    (truthy (prop_opt d "response") = false ->
       search B server js tn (VObj fs) log =
         (Exc (Error "search request failed"), (log ++ [req])%list)) /\
    (truthy (prop_opt d "response") = true ->
       search B server js tn (VObj fs) log = (Ok (prop_opt d "response"), (log ++ [req])%list)).
Proof.
  intros Hconf Hsrv.
  destruct (search_obj B server js tn c Hconf fs log) as [req [_ [_ [_ [_ [_ Hs]]]]]].
  rewrite Hsrv in Hs. exists req.
  split; intros Ht; rewrite Hs, Ht; reflexivity.
Qed.

Lemma search_response_check_witness :
  exists req,
    (truthy (prop_opt (VStr "") "response") = false ->
       search (ConfigValue demo_config) empty_body_server demo_stringify "user" (VObj []) [] =
         (Exc (Error "search request failed"), ([] ++ [req])%list)) /\
    (truthy (prop_opt (VStr "") "response") = true ->
       search (ConfigValue demo_config) empty_body_server demo_stringify "user" (VObj []) [] =
         (Ok (prop_opt (VStr "") "response"), ([] ++ [req])%list)).
Proof.
  apply (search_response_check (ConfigValue demo_config) empty_body_server demo_stringify
           "user" demo_config [] [] (VStr "")).
  - reflexivity.
  - intros r. reflexivity.
Defined.

(** [getByID] on a falsy body (an empty body) raises
    ["Unexpected response from bubble: no body"] after its one request. *)
Theorem getByID_empty_body (B : config_read) server tn c id log d :
  B = ConfigValue c ->
  (forall r, server (length log) r = Response d) ->
  truthy d = false ->
  exists req,
    getByID B server tn id log =
      (Exc (Error "Unexpected response from bubble: no body"), (log ++ [req])%list).
Proof.
  intros Hconf Hsrv Hd.
  unfold getByID.
  rewrite (bind_ok _ _ _ _ _ (url_and_headers_ok B tn c Hconf log)).
  unfold bind at 1, http. rewrite Hsrv, Hd.
  eexists. reflexivity.
Qed.

Lemma getByID_empty_body_witness :
  exists req,
    getByID (ConfigValue demo_config) empty_body_server "user" "1612345x1" [] =
      (Exc (Error "Unexpected response from bubble: no body"), ([] ++ [req])%list).
Proof.
  apply (getByID_empty_body (ConfigValue demo_config) empty_body_server "user" demo_config
           "1612345x1" [] (VStr "")).
  - reflexivity.
  - intros r. reflexivity.
  - reflexivity.
Defined.
